(** * TodoMoobile: the task synchronisation logic of [src/App.js]

    A shallow embedding of the React component [App]: its state hooks, the
    five handlers that talk to the task collection endpoint ([fetchTasks],
    [addTask], [removeTask], [toggleComplete], [saveEdit]), the two inline
    edit handlers of the row (EDIT and CANCEL) and the [filteredTasks]
    projection.

    Every handler closes over the state of the render it was created in.  An
    [async] handler is embedded as the request it issues together with the
    continuation that runs once the network answers; the continuation yields
    the list of effects the handler performs (calls of the state setters and
    of [console.error]), in program order. *)

From Stdlib Require Import List Bool ZArith NArith String Ascii Lia Permutation.
Import ListNotations.

Set Implicit Arguments.

(* ------------------------------------------------------------------ *)
(** ** JavaScript strings *)

Module JsString.

(** A JavaScript string is a sequence of UTF-16 code units. *)
Definition code_unit := N.
Definition t := list code_unit.

(** An ASCII literal of the source, as a JavaScript string. *)
Definition lit (s : string) : t := map N_of_ascii (list_ascii_of_string s).

Definition empty : t := [].

(** The code units [String.prototype.trim] strips: ECMAScript WhiteSpace
    (TAB, VT, FF, ZWNBSP and the Unicode category Zs) and LineTerminator
    (LF, CR, LS, PS). *)
Definition isWhiteSpace (c : code_unit) : bool :=
  ((9 <=? c) && (c <=? 13)        (* TAB LF VT FF CR *)
   || (c =? 32)                   (* SPACE *)
   || (c =? 160)                  (* NBSP *)
   || (c =? 5760)                 (* U+1680 *)
   || ((8192 <=? c) && (c <=? 8202))   (* U+2000 .. U+200A *)
   || (c =? 8232) || (c =? 8233)  (* LS PS *)
   || (c =? 8239)                 (* U+202F *)
   || (c =? 8287)                 (* U+205F *)
   || (c =? 12288)                (* U+3000 *)
   || (c =? 65279))%N.            (* U+FEFF *)

Fixpoint trimStart (s : t) : t :=
  match s with
  | [] => []
  | c :: s' => if isWhiteSpace c then trimStart s' else s
  end.

Definition trimEnd (s : t) : t := rev (trimStart (rev s)).

Definition trim (s : t) : t := trimEnd (trimStart s).

(** ToBoolean on a string: only the empty string is falsy. *)
Definition truthy (s : t) : bool :=
  match s with
  | [] => false
  | _ :: _ => true
  end.

Fixpoint eqb (a b : t) : bool :=
  match a, b with
  | [], [] => true
  | x :: a', y :: b' => N.eqb x y && eqb a' b'
  | _, _ => false
  end.

End JsString.

Definition jsstring : Type := JsString.t.

(* ------------------------------------------------------------------ *)
(** ** Tasks *)

(** A task id is a JSON number or a JSON string; the client never builds
    one, it only compares them with [===]. *)
Inductive task_id : Type :=
| IdNum (n : Z)
| IdStr (s : jsstring).

(** [a === b] on ids: values of different types are never equal. *)
Definition strict_eq (a b : task_id) : bool :=
  match a, b with
  | IdNum x, IdNum y => Z.eqb x y
  | IdStr x, IdStr y => JsString.eqb x y
  | _, _ => false
  end.

Module Task.
Record t : Type := mk {
  id : task_id;
  title : jsstring;
  completed : bool
}.
End Task.

(* ------------------------------------------------------------------ *)
(** ** The network: requests, responses, promises *)

Inductive http_method : Type := GET | POST | PUT | DELETE.

(** [API_URL] and [`${API_URL}${id}/`]. *)
Inductive url : Type :=
| API_URL
| API_URL_item (id : task_id).

(** The values the client serialises with [JSON.stringify]. *)
Inductive json_value : Type :=
| JString (s : jsstring)
| JBool (b : bool).

(** An object literal: its own properties in insertion order. *)
Definition json_object := list (string * json_value).

Fixpoint property (k : string) (o : json_object) : option json_value :=
  match o with
  | [] => None
  | (k', v) :: o' => if String.eqb k k' then Some v else property k o'
  end.

Record Request : Type := mkRequest {
  method : http_method;
  target : url;
  headers : list (string * string);
  body : option json_object
}.

Definition json_headers : list (string * string) :=
  [("Content-Type", "application/json")]%string.

(** What the server sent back.  [payload] is what [response.json()] would
    parse the body to: [None] when the body is not JSON.  The payload is
    typed by the shape the handler uses it at (a task, or an array of
    tasks). *)
Record Response (R : Type) : Type := mkResponse {
  status : Z;
  payload : option R
}.

(** How one [fetch] call ends. *)
Inductive network (R : Type) : Type :=
| NetworkError                      (* the fetch promise rejects *)
| Responded (r : Response R).       (* it resolves, whatever the status *)

Arguments NetworkError {R}.

Inductive js_error : Type :=
| TypeError       (* fetch: network request failed *)
| SyntaxError.    (* json(): unexpected token *)

(** A settled promise, as [await] sees it. *)
Inductive promise (A : Type) : Type :=
| Fulfilled (a : A)
| Thrown (e : js_error).

Arguments Thrown {A}.

Definition await {A B : Type} (p : promise A) (k : A -> promise B) : promise B :=
  match p with
  | Fulfilled a => k a
  | Thrown e => Thrown e
  end.

Notation "x <- p ;; k" := (await p (fun x => k))
  (at level 61, p at next level, right associativity).

(** [fetch] resolves as soon as a response arrives; it does not look at the
    status code. *)
Definition fetch {R : Type} (net : network R) : promise (Response R) :=
  match net with
  | NetworkError => Thrown TypeError
  | Responded r => Fulfilled r
  end.

(** [response.json()]. *)
Definition json {R : Type} (response : Response R) : promise R :=
  match payload response with
  | Some v => Fulfilled v
  | None => Thrown SyntaxError
  end.

(** [try { ... } catch (error) { ... }] around a block that ends normally. *)
Definition try_catch {A : Type} (block : promise A) (handler : js_error -> A) : A :=
  match block with
  | Fulfilled a => a
  | Thrown e => handler e
  end.

(** [response.ok]: the status is in 200..299.  The component never reads it;
    it is here to state what a non-2xx answer is. *)
Definition ok {R : Type} (response : Response R) : bool :=
  ((200 <=? status response) && (status response <=? 299))%Z.

(* ------------------------------------------------------------------ *)
(** ** The component *)

Module App.

(** The six [useState] cells. *)
Record State : Type := mkState {
  tasks : list Task.t;
  task : jsstring;
  editId : option task_id;
  editedTask : jsstring;
  filter : jsstring;
  darkMode : bool
}.

(** [useState] initial values; [systemTheme === 'dark'] is the argument. *)
Definition initial (systemDark : bool) : State :=
  mkState [] JsString.empty None JsString.empty (JsString.lit "all") systemDark.

(** What a handler does to the outside: it calls a state setter or writes
    to the console. *)
Inductive effect : Type :=
| setTasks (v : list Task.t)
| setTask (v : jsstring)
| setEditId (v : option task_id)
| setEditedTask (v : jsstring)
| setFilter (v : jsstring)
| setDarkMode (v : bool)
| console_error (msg : string).

Definition apply (s : State) (e : effect) : State :=
  match e with
  | setTasks v => mkState v (task s) (editId s) (editedTask s) (filter s) (darkMode s)
  | setTask v => mkState (tasks s) v (editId s) (editedTask s) (filter s) (darkMode s)
  | setEditId v => mkState (tasks s) (task s) v (editedTask s) (filter s) (darkMode s)
  | setEditedTask v => mkState (tasks s) (task s) (editId s) v (filter s) (darkMode s)
  | setFilter v => mkState (tasks s) (task s) (editId s) (editedTask s) v (darkMode s)
  | setDarkMode v => mkState (tasks s) (task s) (editId s) (editedTask s) (filter s) v
  | console_error _ => s
  end.

Definition commit (s : State) (es : list effect) : State := fold_left apply es s.

(** A handler call: it either finishes without touching the network, or
    issues one request and resumes when the network answers. *)
Inductive handler (R : Type) : Type :=
| Sync (es : list effect)
| Async (req : Request) (resume : network R -> list effect).

Arguments Sync {R}.

Definition request {R : Type} (h : handler R) : option Request :=
  match h with
  | Sync _ => None
  | Async req _ => Some req
  end.

Definition effects {R : Type} (h : handler R) (net : network R) : list effect :=
  match h with
  | Sync es => es
  | Async _ resume => resume net
  end.

(** The state after the handler has completed, when nothing else touched
    the state while the request was in flight. *)
Definition after {R : Type} (s : State) (h : handler R) (net : network R) : State :=
  commit s (effects h net).

Section Handlers.

(** The render whose closures the handlers are. *)
Variable s : State.

Definition fetchTasks : handler (list Task.t) :=
  Async (mkRequest GET API_URL [] None)
    (fun net =>
       try_catch
         (response <- fetch net ;;
          data <- json response ;;
          Fulfilled [setTasks data])
         (fun error => [console_error "Error fetching tasks:"])).

Definition addTask : handler Task.t :=
  if negb (JsString.truthy (JsString.trim (task s))) then Sync [] else
  Async (mkRequest POST API_URL json_headers
           (Some [("title", JString (task s)); ("completed", JBool false)]%string))
    (fun net =>
       try_catch
         (response <- fetch net ;;
          newTask <- json response ;;
          Fulfilled [setTasks (tasks s ++ [newTask]); setTask (JsString.lit "")])
         (fun error => [console_error "Error adding task:"])).

(** The body of the answer is never read here, so any payload type does. *)
Definition removeTask {R : Type} (id : task_id) : handler R :=
  Async (mkRequest DELETE (API_URL_item id) [] None)
    (fun net =>
       try_catch
         (_ <- fetch net ;;
          Fulfilled
            [setTasks (List.filter (fun t => negb (strict_eq (Task.id t) id)) (tasks s))])
         (fun error => [console_error "Error deleting task:"])).

Definition toggleComplete (id : task_id) (completed : bool) : handler Task.t :=
  match find (fun t => strict_eq (Task.id t) id) (tasks s) with
  | None => Sync []
  | Some taskToUpdate =>
      Async (mkRequest PUT (API_URL_item id) json_headers
               (Some [("title", JString (Task.title taskToUpdate));
                      ("completed", JBool (negb completed))]%string))
        (fun net =>
           try_catch
             (response <- fetch net ;;
              updatedTask <- json response ;;
              Fulfilled
                [setTasks (map (fun t => if strict_eq (Task.id t) id
                                         then updatedTask else t) (tasks s))])
             (fun error => [console_error "Error toggling task:"]))
  end.

Definition saveEdit (id : task_id) : handler Task.t :=
  if negb (JsString.truthy (JsString.trim (editedTask s))) then Sync [] else
  Async (mkRequest PUT (API_URL_item id) json_headers
           (Some [("title", JString (editedTask s))]%string))
    (fun net =>
       try_catch
         (response <- fetch net ;;
          updatedTask <- json response ;;
          Fulfilled
            [setTasks (map (fun t => if strict_eq (Task.id t) id
                                     then updatedTask else t) (tasks s));
             setEditId None;
             setEditedTask (JsString.lit "")])
         (fun error => [console_error "Error editing task:"])).

Definition filteredTasks : list Task.t :=
  List.filter
    (fun t =>
       if JsString.eqb (filter s) (JsString.lit "completed") then Task.completed t
       else if JsString.eqb (filter s) (JsString.lit "pending")
            then negb (Task.completed t)
            else true)
    (tasks s).

(** The [onPress] closures of one rendered row. *)

Definition onPressToggle (item : Task.t) : handler Task.t :=
  toggleComplete (Task.id item) (Task.completed item).

Definition onPressSave (item : Task.t) : handler Task.t :=
  saveEdit (Task.id item).

Definition onPressCancel : handler Task.t :=
  Sync [setEditId None].

Definition onPressEdit (item : Task.t) : handler Task.t :=
  Sync [setEditId (Some (Task.id item)); setEditedTask (Task.title item)].

Definition onPressDelete (item : Task.t) : handler Task.t :=
  removeTask (Task.id item).

Definition onPressTheme : handler Task.t :=
  Sync [setDarkMode (negb (darkMode s))].

Definition onPressFilter (type : jsstring) : handler Task.t :=
  Sync [setFilter type].

End Handlers.

End App.

(* ------------------------------------------------------------------ *)
(** ** Vocabulary of the properties *)

(** [Subseq l m]: [l] is [m] with some elements dropped, the others in the
    order they have in [m]. *)
Inductive Subseq {A : Type} : list A -> list A -> Prop :=
| Subseq_nil : Subseq [] []
| Subseq_keep : forall x l m, Subseq l m -> Subseq (x :: l) (x :: m)
| Subseq_drop : forall x l m, Subseq l m -> Subseq l (x :: m).

(** The outcomes the specification calls a failed operation: a network
    error, a body that is not JSON, a status outside 200..299. *)
Definition operation_failed {R : Type} (net : network R) : bool :=
  match net with
  | NetworkError => true
  | Responded r =>
      negb (ok r) || match payload r with None => true | Some _ => false end
  end.

(** The ids of a list of tasks, in list order. *)
Definition ids (ts : list Task.t) : list task_id := map Task.id ts.

(** A state that differs from [App.initial] only in its list and texts. *)
Definition state_of (ts : list Task.t) (pending : jsstring)
    (target : option task_id) (text : jsstring) : App.State :=
  App.mkState ts pending target text (JsString.lit "all") false.

(** [ReplacedById id u old new]: [new] is [old] with every task whose id is
    [id] replaced by [u], position by position. *)
Definition ReplacedById (id : task_id) (u : Task.t) (old new : list Task.t) : Prop :=
  List.length new = List.length old
  /\ forall i t, nth_error old i = Some t ->
       (Task.id t = id -> nth_error new i = Some u)
       /\ (Task.id t <> id -> nth_error new i = Some t).

(** Example data: the tasks and texts of the specification's scenarios. *)
Definition task_A : Task.t := Task.mk (IdNum 1) (JsString.lit "A") false.
Definition task_A_done : Task.t := Task.mk (IdNum 1) (JsString.lit "A") true.
Definition task_A2 : Task.t := Task.mk (IdNum 1) (JsString.lit "A2") false.
Definition task_B : Task.t := Task.mk (IdNum 2) (JsString.lit "B") true.
Definition task_milk : Task.t := Task.mk (IdNum 7) (JsString.lit "Buy milk") false.

(** A server answer with a JSON body. *)
Definition answer {R : Type} (status : Z) (v : R) : network R :=
  Responded (mkResponse status (Some v)).

(** A server answer whose body is not JSON. *)
Definition garbage {R : Type} (status : Z) : network R :=
  Responded (mkResponse status None).

(* ------------------------------------------------------------------ *)
(** ** What the component renders, and the events it offers *)

Module View.

(** The right-hand part of a row: the edit input with SAVE and CANCEL, or
    the title with EDIT and DELETE. *)
Inductive controls : Type :=
| Editing (value : jsstring)
| Viewing (title : jsstring).

(** One [renderItem] of the [FlatList]. *)
Record Row : Type := mkRow {
  item : Task.t;
  iconName : string;        (* the toggle icon *)
  dimmed : bool;            (* [item.completed && styles.completed] *)
  body : controls
}.

(** [editId === item.id]; [null] is no id. *)
Definition isEditing (s : App.State) (item : Task.t) : bool :=
  match App.editId s with
  | Some e => strict_eq e (Task.id item)
  | None => false
  end.

Definition renderItem (s : App.State) (item : Task.t) : Row :=
  mkRow item
    (if Task.completed item then "check-circle" else "circle")
    (Task.completed item)
    (if isEditing s item then Editing (App.editedTask s)
     else Viewing (Task.title item)).

(** [data={filteredTasks}]. *)
Definition rows (s : App.State) : list Row :=
  map (renderItem s) (App.filteredTasks s).

Definition showsInput (r : Row) : bool :=
  match body r with
  | Editing _ => true
  | Viewing _ => false
  end.

(** [['all', 'completed', 'pending'].map(...)]: the filter buttons. *)
Definition filterTypes : list jsstring :=
  [JsString.lit "all"; JsString.lit "completed"; JsString.lit "pending"].

(** [filter === type]: the button drawn with [styles.activeFilter]. *)
Definition isActive (s : App.State) (type : jsstring) : bool :=
  JsString.eqb (App.filter s) type.

(** The label of the theme button. *)
Definition themeLabel (s : App.State) : string :=
  if App.darkMode s then "Dark" else "Light".

(** What the user can do on the screen.  The asynchronous presses carry the
    way their request ends. *)
Inductive event : Type :=
| ChangeText (v : jsstring)                       (* onChangeText={setTask} *)
| PressAdd (net : network Task.t)
| PressTheme
| PressFilter (type : jsstring)
| PressToggle (item : Task.t) (net : network Task.t)
| ChangeEditText (item : Task.t) (v : jsstring)   (* onChangeText={setEditedTask} *)
| PressSave (item : Task.t) (net : network Task.t)
| PressCancel (item : Task.t)
| PressEdit (item : Task.t)
| PressDelete (item : Task.t) (net : network Task.t).

(** The events the render of [s] offers: the row events exist for the rows
    of [filteredTasks] only, SAVE and CANCEL on a row that shows the input,
    EDIT and DELETE on a row that does not. *)
Definition offered (s : App.State) (ev : event) : Prop :=
  match ev with
  | ChangeText _ | PressAdd _ | PressTheme => True
  | PressFilter type => In type filterTypes
  | PressToggle item _ => In item (App.filteredTasks s)
  | ChangeEditText item _ | PressSave item _ | PressCancel item =>
      In item (App.filteredTasks s) /\ isEditing s item = true
  | PressEdit item | PressDelete item _ =>
      In item (App.filteredTasks s) /\ isEditing s item = false
  end.

(** The state once the event's handler, taken from the render of [s], has
    completed with nothing else in between. *)
Definition handle (s : App.State) (ev : event) : App.State :=
  match ev with
  | ChangeText v => App.apply s (App.setTask v)
  | PressAdd net => App.after s (App.addTask s) net
  | PressTheme => App.after s (App.onPressTheme s) (@NetworkError Task.t)
  | PressFilter type => App.after s (App.onPressFilter type) (@NetworkError Task.t)
  | PressToggle item net => App.after s (App.onPressToggle s item) net
  | ChangeEditText _ v => App.apply s (App.setEditedTask v)
  | PressSave item net => App.after s (App.onPressSave s item) net
  | PressCancel _ => App.after s App.onPressCancel (@NetworkError Task.t)
  | PressEdit item => App.after s (App.onPressEdit item) (@NetworkError Task.t)
  | PressDelete item net => App.after s (App.onPressDelete s item) net
  end.

(** The states the screen can be in: the component mounts, its effect runs
    [fetchTasks], and the user then does one offered thing after the
    other. *)
Inductive reachable : App.State -> Prop :=
| reach_mount : forall systemDark net,
    reachable (App.after (App.initial systemDark) App.fetchTasks net)
| reach_event : forall s ev,
    reachable s -> offered s ev -> reachable (handle s ev).

End View.

(** A sequence of events, each handled on the render the one before left. *)
Fixpoint play (s : App.State) (evs : list View.event) : App.State :=
  match evs with
  | [] => s
  | ev :: evs' => play (View.handle s ev) evs'
  end.

(** The server keeps ids apart: the task it returns for a create has an id
    no listed task has, and the task it returns for an update has the id of
    the request. *)
Definition server_keeps_ids (s : App.State) (ev : View.event) : Prop :=
  match ev with
  | View.PressAdd (Responded r) =>
      match payload r with
      | Some t => ~ In (Task.id t) (ids (App.tasks s))
      | None => True
      end
  | View.PressToggle item (Responded r) | View.PressSave item (Responded r) =>
      match payload r with
      | Some t => Task.id t = Task.id item
      | None => True
      end
  | _ => True
  end.

(** Every event of the sequence is offered by the render it happens on and
    answered by a server that keeps ids apart. *)
Fixpoint well_served (s : App.State) (evs : list View.event) : Prop :=
  match evs with
  | [] => True
  | ev :: evs' =>
      View.offered s ev /\ server_keeps_ids s ev /\ well_served (View.handle s ev) evs'
  end.

(** Two handlers of the same render [s] in flight at once: the state after
    the first, then the second, has completed. *)
Definition overlapped {R1 R2 : Type} (s : App.State)
    (first : App.handler R1) (net1 : network R1)
    (second : App.handler R2) (net2 : network R2) : App.State :=
  App.commit (App.commit s (App.effects first net1)) (App.effects second net2).

(** The [console.error] calls among the effects, and the setter calls. *)
Definition isLog (e : App.effect) : bool :=
  match e with
  | App.console_error _ => true
  | _ => false
  end.

Definition logs (es : list App.effect) : list App.effect := List.filter isLog es.

Definition sets (es : list App.effect) : list App.effect :=
  List.filter (fun e => negb (isLog e)) es.

(** The handler issued a request. *)
Definition issued {R : Type} (h : App.handler R) : bool :=
  match App.request h with
  | Some _ => true
  | None => false
  end.

(** What a [catch] block writes: one line when it runs. *)
Definition report (failed : bool) (msg : string) : list App.effect :=
  if failed then [App.console_error msg] else [].

(** [fetch] has rejected. *)
Definition unreachable {R : Type} (net : network R) : bool :=
  match net with
  | NetworkError => true
  | Responded _ => false
  end.

(** [fetch] has rejected, or [response.json()] has. *)
Definition rejected {R : Type} (net : network R) : bool :=
  match net with
  | NetworkError => true
  | Responded r => match payload r with None => true | Some _ => false end
  end.

(* ------------------------------------------------------------------ *)
(** ** Basic facts: strings, ids, lists *)

Unset Implicit Arguments.

Lemma JsString_eqb_eq (a b : jsstring) : JsString.eqb a b = true <-> a = b.
Proof.
  revert b; induction a as [|x a IH]; intros [|y b]; simpl; split;
    try congruence; try reflexivity.
  - intros H. apply andb_true_iff in H as [Hx Ha].
    apply N.eqb_eq in Hx. apply IH in Ha. congruence.
  - intros H. injection H as -> ->.
    apply andb_true_iff. split; [apply N.eqb_refl | now apply IH].
Qed.

Lemma JsString_eqb_refl (a : jsstring) : JsString.eqb a a = true.
Proof. now apply JsString_eqb_eq. Qed.

Lemma strict_eq_true (a b : task_id) : strict_eq a b = true <-> a = b.
Proof.
  destruct a as [x|x], b as [y|y]; simpl; split; try congruence.
  - intros H. apply Z.eqb_eq in H. congruence.
  - intros H. injection H as ->. apply Z.eqb_refl.
  - intros H. apply JsString_eqb_eq in H. congruence.
  - intros H. injection H as ->. apply JsString_eqb_refl.
Qed.

Lemma strict_eq_false (a b : task_id) : strict_eq a b = false <-> a <> b.
Proof.
  rewrite <- strict_eq_true. destruct (strict_eq a b); split; congruence.
Qed.

Lemma strict_eq_refl (a : task_id) : strict_eq a a = true.
Proof. now apply strict_eq_true. Qed.

Lemma truthy_false_iff (x : jsstring) : JsString.truthy x = false <-> x = [].
Proof. destruct x; simpl; split; congruence. Qed.

Lemma Subseq_refl {A : Type} (l : list A) : Subseq l l.
Proof. induction l; constructor; assumption. Qed.

Lemma Subseq_filter {A : Type} (p : A -> bool) (l : list A) :
  Subseq (List.filter p l) l.
Proof.
  induction l as [|x l IH]; simpl.
  - constructor.
  - destruct (p x); constructor; assumption.
Qed.

Lemma Subseq_length {A : Type} (l m : list A) :
  Subseq l m -> List.length l <= List.length m.
Proof. induction 1; simpl; lia. Qed.

Lemma filter_true {A : Type} (l : list A) : List.filter (fun _ => true) l = l.
Proof. induction l as [|x l IH]; simpl; congruence. Qed.

(** The lookup of [toggleComplete] fails exactly when no task has the id. *)
Lemma find_id_None (ts : list Task.t) (id : task_id) :
  find (fun t => strict_eq (Task.id t) id) ts = None
  <-> (forall t, In t ts -> Task.id t <> id).
Proof.
  split.
  - intros H t Ht. apply strict_eq_false.
    exact (find_none _ _ H t Ht).
  - induction ts as [|x ts IH]; simpl; intros H; [reflexivity|].
    assert (Hx : strict_eq (Task.id x) id = false)
      by (apply strict_eq_false, H; now left).
    rewrite Hx. apply IH. intros t Ht. apply H. now right.
Qed.

(** With pairwise distinct ids the lookup of a listed task returns it. *)
Lemma find_id_NoDup (ts : list Task.t) (item : Task.t) :
  NoDup (ids ts) -> In item ts ->
  find (fun t => strict_eq (Task.id t) (Task.id item)) ts = Some item.
Proof.
  unfold ids. induction ts as [|x ts IH]; simpl; intros Hnd Hin; [contradiction|].
  inversion Hnd as [|? ? Hx Hts]; subst.
  destruct Hin as [->|Hin].
  - now rewrite strict_eq_refl.
  - destruct (strict_eq (Task.id x) (Task.id item)) eqn:E.
    + apply strict_eq_true in E. exfalso. apply Hx. rewrite E.
      now apply in_map.
    + now apply IH.
Qed.

(** Replacing by id touches no task when the id is absent. *)
Lemma map_replace_absent (ts : list Task.t) (id : task_id) (u : Task.t) :
  (forall t, In t ts -> Task.id t <> id) ->
  map (fun t => if strict_eq (Task.id t) id then u else t) ts = ts.
Proof.
  induction ts as [|x ts IH]; simpl; intros H; [reflexivity|].
  assert (Hx : strict_eq (Task.id x) id = false)
    by (apply strict_eq_false, H; now left).
  rewrite Hx. f_equal. apply IH. intros t Ht. apply H. now right.
Qed.

(** Removing by id drops exactly one task when ids are distinct. *)
Lemma filter_remove_length (ts : list Task.t) (id : task_id) :
  NoDup (ids ts) -> In id (ids ts) ->
  S (List.length (List.filter (fun t => negb (strict_eq (Task.id t) id)) ts)) = List.length ts.
Proof.
  unfold ids. induction ts as [|x ts IH]; simpl; intros Hnd Hin; [contradiction|].
  inversion Hnd as [|? ? Hx Hts]; subst.
  destruct (strict_eq (Task.id x) id) eqn:E; simpl.
  - apply strict_eq_true in E. subst id. f_equal.
    clear IH Hnd Hin Hts.
    induction ts as [|y ts IH]; simpl; [reflexivity|].
    destruct (strict_eq (Task.id y) (Task.id x)) eqn:E; simpl.
    + apply strict_eq_true in E. exfalso. apply Hx. simpl. now left.
    + f_equal. apply IH. intros H. apply Hx. simpl. now right.
  - f_equal. apply IH; [assumption|].
    destruct Hin as [H|H]; [|assumption].
    apply strict_eq_false in E. contradiction.
Qed.

(* ------------------------------------------------------------------ *)
(** ** Trimming *)

Example trim_blank : JsString.trim (JsString.lit "  ") = [].
Proof. reflexivity. Qed.

Example trim_padded :
  JsString.trim (JsString.lit "  Buy milk ") = JsString.lit "Buy milk".
Proof. reflexivity. Qed.

Example trim_inner_space :
  JsString.trim (JsString.lit "Buy milk") = JsString.lit "Buy milk".
Proof. reflexivity. Qed.

Lemma trimStart_nil_iff (x : jsstring) :
  JsString.trimStart x = [] <-> forallb JsString.isWhiteSpace x = true.
Proof.
  induction x as [|c x IH]; simpl; [tauto|].
  destruct (JsString.isWhiteSpace c); simpl; [exact IH|].
  split; discriminate.
Qed.

Lemma trimStart_head (x : jsstring) (c : JsString.code_unit) (y : jsstring) :
  JsString.trimStart x = c :: y -> JsString.isWhiteSpace c = false.
Proof.
  induction x as [|d x IH]; simpl; [discriminate|].
  destruct (JsString.isWhiteSpace d) eqn:E; [exact IH|].
  intros H. injection H as -> _. exact E.
Qed.

Lemma forallb_rev {A : Type} (p : A -> bool) (l : list A) :
  forallb p (rev l) = forallb p l.
Proof.
  induction l as [|a l IH]; simpl; [reflexivity|].
  rewrite forallb_app, IH. simpl. rewrite andb_true_r. apply andb_comm.
Qed.

(** The guard of [addTask] and [saveEdit] rejects exactly the texts made of
    white space only (the empty text among them). *)
Lemma trim_nil_iff (x : jsstring) :
  JsString.trim x = [] <-> forallb JsString.isWhiteSpace x = true.
Proof.
  unfold JsString.trim, JsString.trimEnd. split.
  - intros H. apply (f_equal (@rev _)) in H. rewrite rev_involutive in H.
    simpl in H. apply trimStart_nil_iff in H. rewrite forallb_rev in H.
    destruct (JsString.trimStart x) as [|c y] eqn:E.
    + now apply trimStart_nil_iff.
    + apply trimStart_head in E. simpl in H. rewrite E in H. discriminate.
  - intros H. apply trimStart_nil_iff in H. rewrite H. reflexivity.
Qed.

(* ------------------------------------------------------------------ *)
(** ** The state after a handler *)

Lemma commit_nil (s : App.State) : App.commit s [] = s.
Proof. reflexivity. Qed.

Lemma commit_console (s : App.State) (msg : string) :
  App.commit s [App.console_error msg] = s.
Proof. reflexivity. Qed.

Lemma state_eta (s : App.State) :
  App.mkState (App.tasks s) (App.task s) (App.editId s) (App.editedTask s)
    (App.filter s) (App.darkMode s) = s.
Proof. destruct s; reflexivity. Qed.

Lemma map_replace_in_place (ts : list Task.t) (id : task_id) (u : Task.t) :
  ReplacedById id u ts
    (map (fun t => if strict_eq (Task.id t) id then u else t) ts).
Proof.
  split; [apply length_map|].
  intros i t Hi. rewrite nth_error_map, Hi. simpl.
  split; intros Hid.
  - apply strict_eq_true in Hid. now rewrite Hid.
  - apply strict_eq_false in Hid. now rewrite Hid.
Qed.

(** The guard of [addTask] and [saveEdit], decided on the trimmed text. *)
Lemma guard_blank (x : jsstring) :
  JsString.trim x = [] -> negb (JsString.truthy (JsString.trim x)) = true.
Proof. intros ->. reflexivity. Qed.

Lemma guard_text (x : jsstring) :
  JsString.trim x <> [] -> negb (JsString.truthy (JsString.trim x)) = false.
Proof. destruct (JsString.trim x); [congruence | reflexivity]. Qed.

Create HintDb tasks.
#[local] Hint Resolve Subseq_refl Subseq_filter : tasks.

(** Decide the guard of [addTask] or [saveEdit] from a hypothesis on the
    trimmed text, then run the handler. *)
Ltac pass_guard H :=
  unfold App.after, App.effects, App.request, App.addTask, App.saveEdit;
  first [ rewrite (guard_text _ H) | rewrite (guard_blank _ H) ];
  simpl.

(* ------------------------------------------------------------------ *)
(** ** The filter projection *)

(** C2.  [filteredTasks] is an order-preserving subsequence of the task
    list that depends on the list and the filter only; under the filter
    ['completed'] it holds exactly the listed tasks whose [completed] is
    [true], under ['pending'] exactly those whose [completed] is [false],
    and under ['all'] it is the whole list. *)
Theorem filteredTasks_projection (s : App.State) :
  Subseq (App.filteredTasks s) (App.tasks s)
  /\ (forall s', App.tasks s' = App.tasks s -> App.filter s' = App.filter s ->
        App.filteredTasks s' = App.filteredTasks s)
  /\ (App.filter s = JsString.lit "completed" ->
        forall t, In t (App.filteredTasks s)
                  <-> In t (App.tasks s) /\ Task.completed t = true)
  /\ (App.filter s = JsString.lit "pending" ->
        forall t, In t (App.filteredTasks s)
                  <-> In t (App.tasks s) /\ Task.completed t = false)
  /\ (App.filter s = JsString.lit "all" -> App.filteredTasks s = App.tasks s).
Proof.
  unfold App.filteredTasks.
  split; [auto with tasks|].
  split; [intros s' -> ->; reflexivity|].
  split; [|split]; intros Hf; rewrite Hf; simpl.
  - intros t. rewrite filter_In. reflexivity.
  - intros t. rewrite filter_In, negb_true_iff. reflexivity.
  - apply filter_true.
Qed.

Lemma filteredTasks_projection_witness :
  (In task_B
      (App.filteredTasks
         (App.mkState [task_A; task_B] [] None [] (JsString.lit "completed") false))
   <-> In task_B [task_A; task_B] /\ Task.completed task_B = true)
  /\ (In task_A
         (App.filteredTasks
            (App.mkState [task_A; task_B] [] None [] (JsString.lit "pending") false))
      <-> In task_A [task_A; task_B] /\ Task.completed task_A = false)
  /\ App.filteredTasks
        (App.mkState [task_A; task_B] [] None [] (JsString.lit "all") false)
     = [task_A; task_B].
Proof.
  split; [|split].
  - apply (proj1 (proj2 (proj2 (filteredTasks_projection
             (App.mkState [task_A; task_B] [] None [] (JsString.lit "completed")
                false))))).
    reflexivity.
  - apply (proj1 (proj2 (proj2 (proj2 (filteredTasks_projection
             (App.mkState [task_A; task_B] [] None [] (JsString.lit "pending")
                false)))))).
    reflexivity.
  - apply (proj2 (proj2 (proj2 (proj2 (filteredTasks_projection
             (App.mkState [task_A; task_B] [] None [] (JsString.lit "all")
                false)))))).
    reflexivity.
Defined.

(* ------------------------------------------------------------------ *)
(** ** Add *)

(** C4.  When the pending text trims to the empty string, [addTask] issues
    no request and leaves the state as it is.  Otherwise it issues a POST,
    and once the answer's body has parsed the list is the old list with the
    returned task appended at its end, one element longer, and the pending
    text is the empty string; the rest of the state is untouched. *)
Theorem addTask_guard_and_append (s : App.State) :
  (JsString.trim (App.task s) = [] ->
     App.request (App.addTask s) = None
     /\ forall net, App.after s (App.addTask s) net = s)
  /\ (JsString.trim (App.task s) <> [] ->
        (exists req, App.request (App.addTask s) = Some req
                     /\ method req = POST /\ target req = API_URL)
        /\ forall status newTask,
             let s' := App.after s (App.addTask s) (answer status newTask) in
             App.tasks s' = App.tasks s ++ [newTask]
             /\ List.length (App.tasks s') = S (List.length (App.tasks s))
             /\ App.task s' = JsString.lit ""
             /\ App.editId s' = App.editId s
             /\ App.editedTask s' = App.editedTask s
             /\ App.filter s' = App.filter s
             /\ App.darkMode s' = App.darkMode s).
Proof.
  split; intros H.
  - split; [|intros net]; pass_guard H; reflexivity.
  - split.
    + eexists. pass_guard H. repeat split.
    + intros status newTask. pass_guard H.
      repeat split. rewrite length_app. simpl. lia.
Qed.

Lemma addTask_guard_and_append_witness :
  (App.request (App.addTask (state_of [task_A] (JsString.lit "  ") None [])) = None
   /\ forall net,
        App.after (state_of [task_A] (JsString.lit "  ") None [])
          (App.addTask (state_of [task_A] (JsString.lit "  ") None [])) net
        = state_of [task_A] (JsString.lit "  ") None [])
  /\ App.tasks
       (App.after (state_of [task_A] (JsString.lit "Buy milk") None [])
          (App.addTask (state_of [task_A] (JsString.lit "Buy milk") None []))
          (answer 201 task_milk))
     = [task_A; task_milk].
Proof.
  split.
  - apply (proj1 (addTask_guard_and_append
                    (state_of [task_A] (JsString.lit "  ") None []))).
    reflexivity.
  - apply (proj2 (proj2 (addTask_guard_and_append
                    (state_of [task_A] (JsString.lit "Buy milk") None []))
                    ltac:(vm_compute; discriminate)) 201%Z task_milk).
Defined.

(** C9.  The guard is decided on the trimmed text, but the body of the
    request carries the text as it was entered: [addTask] posts
    [{title: task, completed: false}] and [saveEdit] puts
    [{title: editedTask}], so whenever trimming would change the text the
    title on the wire differs from the trimmed one. *)
Theorem request_title_untrimmed (s : App.State) :
  (JsString.trim (App.task s) <> [] ->
     App.request (App.addTask s)
     = Some (mkRequest POST API_URL json_headers
               (Some [("title", JString (App.task s));
                      ("completed", JBool false)]%string))
     /\ (App.task s <> JsString.trim (App.task s) ->
           JString (App.task s) <> JString (JsString.trim (App.task s))))
  /\ (forall id,
        JsString.trim (App.editedTask s) <> [] ->
        App.request (App.saveEdit s id)
        = Some (mkRequest PUT (API_URL_item id) json_headers
                  (Some [("title", JString (App.editedTask s))]%string))
        /\ (App.editedTask s <> JsString.trim (App.editedTask s) ->
              JString (App.editedTask s)
              <> JString (JsString.trim (App.editedTask s)))).
Proof.
  split; [|intros id]; intros H; (split; [pass_guard H; reflexivity|]);
    intros Hne Heq; apply Hne; congruence.
Qed.

Lemma request_title_untrimmed_witness :
  (App.request
     (App.addTask (state_of [] (JsString.lit "  Buy milk ") (Some (IdNum 1))
                     (JsString.lit " A2 ")))
   = Some (mkRequest POST API_URL json_headers
             (Some [("title", JString (JsString.lit "  Buy milk "));
                    ("completed", JBool false)]%string))
   /\ JString (JsString.lit "  Buy milk ") <> JString (JsString.lit "Buy milk"))
  /\ App.request
       (App.saveEdit (state_of [] (JsString.lit "  Buy milk ") (Some (IdNum 1))
                        (JsString.lit " A2 ")) (IdNum 1))
     = Some (mkRequest PUT (API_URL_item (IdNum 1)) json_headers
               (Some [("title", JString (JsString.lit " A2 "))]%string)).
Proof.
  pose proof (request_title_untrimmed
                (state_of [] (JsString.lit "  Buy milk ") (Some (IdNum 1))
                   (JsString.lit " A2 "))) as [Hadd Hsave].
  specialize (Hadd ltac:(vm_compute; discriminate)).
  specialize (Hsave (IdNum 1) ltac:(vm_compute; discriminate)).
  destruct Hadd as [Hreq Hneq]. destruct Hsave as [Hput _].
  split; [split|].
  - exact Hreq.
  - apply Hneq. vm_compute. discriminate.
  - exact Hput.
Defined.

(* ------------------------------------------------------------------ *)
(** ** Save edit *)

(** C5.  When the edit text trims to the empty string, [saveEdit] issues no
    request and leaves the state as it is.  Otherwise it issues a PUT to the
    item whose body has the property [title], holding the edit text, and no
    property [completed]; once the answer's body has parsed, the tasks with
    the id are replaced in place by the returned task and both the edit
    target and the edit text are cleared. *)
Theorem saveEdit_guard_and_replace (s : App.State) (id : task_id) :
  (JsString.trim (App.editedTask s) = [] ->
     App.request (App.saveEdit s id) = None
     /\ forall net, App.after s (App.saveEdit s id) net = s)
  /\ (JsString.trim (App.editedTask s) <> [] ->
        (exists obj,
            App.request (App.saveEdit s id)
            = Some (mkRequest PUT (API_URL_item id) json_headers (Some obj))
            /\ obj = [("title"%string, JString (App.editedTask s))]
            /\ property "completed" obj = None)
        /\ forall status updatedTask,
             let s' := App.after s (App.saveEdit s id) (answer status updatedTask) in
             App.tasks s'
             = map (fun t => if strict_eq (Task.id t) id then updatedTask else t)
                 (App.tasks s)
             /\ ReplacedById id updatedTask (App.tasks s) (App.tasks s')
             /\ App.editId s' = None
             /\ App.editedTask s' = JsString.lit ""
             /\ App.task s' = App.task s
             /\ App.filter s' = App.filter s
             /\ App.darkMode s' = App.darkMode s).
Proof.
  split; intros H.
  - split; [|intros net]; pass_guard H; reflexivity.
  - split.
    + eexists. pass_guard H. repeat split.
    + intros status updatedTask. pass_guard H.
      split; [reflexivity|].
      split; [apply map_replace_in_place|].
      repeat split.
Qed.

Lemma saveEdit_guard_and_replace_witness :
  App.request (App.saveEdit (state_of [task_A; task_B] [] (Some (IdNum 1))
                               (JsString.lit " ")) (IdNum 1)) = None
  /\ App.after (state_of [task_A; task_B] [] (Some (IdNum 1)) (JsString.lit "A2"))
       (App.saveEdit (state_of [task_A; task_B] [] (Some (IdNum 1))
                        (JsString.lit "A2")) (IdNum 1))
       (answer 200 task_A2)
     = state_of [task_A2; task_B] [] None [].
Proof.
  split.
  - apply (proj1 (saveEdit_guard_and_replace
                    (state_of [task_A; task_B] [] (Some (IdNum 1)) (JsString.lit " "))
                    (IdNum 1))).
    reflexivity.
  - pose proof (proj2 (proj2 (saveEdit_guard_and_replace
                    (state_of [task_A; task_B] [] (Some (IdNum 1)) (JsString.lit "A2"))
                    (IdNum 1)) ltac:(vm_compute; discriminate)) 200%Z task_A2) as H.
    cbv zeta in H. destruct H as (Hts & _ & Hid & Htxt & Htask & Hf & Hd).
    rewrite <- state_eta at 1. rewrite Hts, Hid, Htxt, Htask, Hf, Hd.
    reflexivity.
Defined.

(** C10.  [saveEdit] does not look the id up.  Whether it issues its request
    depends on the edit text alone; for an id that no listed task has,
    [toggleComplete] issues nothing while [saveEdit] (with an edit text
    that does not trim to the empty string) issues its PUT all the same,
    and once the answer's body has parsed the edit target and the edit text
    are cleared and the list is the one it was. *)
Theorem saveEdit_absent_id (s : App.State) (id : task_id) :
  (forall s2, App.editedTask s2 = App.editedTask s ->
      App.request (App.saveEdit s2 id) = App.request (App.saveEdit s id))
  /\ ((forall t, In t (App.tasks s) -> Task.id t <> id) ->
      JsString.trim (App.editedTask s) <> [] ->
      (forall completed, App.request (App.toggleComplete s id completed) = None)
      /\ App.request (App.saveEdit s id)
         = Some (mkRequest PUT (API_URL_item id) json_headers
                   (Some [("title"%string, JString (App.editedTask s))]))
      /\ forall status updatedTask,
           let s' := App.after s (App.saveEdit s id) (answer status updatedTask) in
           App.tasks s' = App.tasks s
           /\ App.editId s' = None
           /\ App.editedTask s' = JsString.lit "").
Proof.
  split.
  - intros s2 H2. unfold App.request, App.saveEdit. rewrite H2.
    destruct (negb _); reflexivity.
  - intros Habs H. split; [|split].
    + intros completed. unfold App.toggleComplete.
      apply find_id_None in Habs. now rewrite Habs.
    + pass_guard H. reflexivity.
    + intros status updatedTask. pass_guard H.
      repeat split. now apply map_replace_absent.
Qed.

Lemma saveEdit_absent_id_witness :
  App.request (App.saveEdit (state_of [task_A] [] (Some (IdNum 2)) (JsString.lit "B2"))
                 (IdNum 2))
  = Some (mkRequest PUT (API_URL_item (IdNum 2)) json_headers
            (Some [("title"%string, JString (JsString.lit "B2"))]))
  /\ App.tasks
       (App.after (state_of [task_A] [] (Some (IdNum 2)) (JsString.lit "B2"))
          (App.saveEdit (state_of [task_A] [] (Some (IdNum 2)) (JsString.lit "B2"))
             (IdNum 2))
          (answer 200 task_B))
     = [task_A].
Proof.
  pose proof (proj2 (saveEdit_absent_id
                (state_of [task_A] [] (Some (IdNum 2)) (JsString.lit "B2")) (IdNum 2)))
    as H.
  assert (Habs : forall t,
             In t (App.tasks (state_of [task_A] [] (Some (IdNum 2)) (JsString.lit "B2")))
             -> Task.id t <> IdNum 2).
  { simpl. intros t [<-|[]]. discriminate. }
  specialize (H Habs ltac:(vm_compute; discriminate)).
  destruct H as (_ & Hreq & Hafter).
  split; [exact Hreq | exact (proj1 (Hafter 200%Z task_B))].
Defined.

(* ------------------------------------------------------------------ *)
(** ** Toggle *)

(** What [toggleComplete] sends once its lookup has found a task: the title
    of the task found and the negation of the flag it was called with. *)
Lemma toggleComplete_request (s : App.State) (id : task_id) (completed : bool)
    (taskToUpdate : Task.t) :
  find (fun t => strict_eq (Task.id t) id) (App.tasks s) = Some taskToUpdate ->
  App.request (App.toggleComplete s id completed)
  = Some (mkRequest PUT (API_URL_item id) json_headers
            (Some [("title"%string, JString (Task.title taskToUpdate));
                   ("completed"%string, JBool (negb completed))])).
Proof. intros H. unfold App.toggleComplete. now rewrite H. Qed.

(** C3.  Ids are the server's unique identifiers, so the tasks of a list
    have pairwise distinct ids.  [toggleComplete] issues no request and
    leaves the state as it is when no listed task has the id.  When the ids
    of the list are pairwise distinct, pressing the toggle of a listed task
    issues
    a PUT to its item with the body [{title, completed}] holding that task's
    title and the negation of its flag.  Whenever a request is issued and
    the answer's body has parsed, every task with the id is replaced in
    place by the returned task: the length of the list and all other
    positions are unchanged, and so is the rest of the state. *)
Theorem toggleComplete_in_place (s : App.State) :
  (forall id completed,
      (forall t, In t (App.tasks s) -> Task.id t <> id) ->
      App.request (App.toggleComplete s id completed) = None
      /\ forall net, App.after s (App.toggleComplete s id completed) net = s)
  /\ (forall item,
        NoDup (ids (App.tasks s)) -> In item (App.tasks s) ->
        App.request (App.onPressToggle s item)
        = Some (mkRequest PUT (API_URL_item (Task.id item)) json_headers
                  (Some [("title"%string, JString (Task.title item));
                         ("completed"%string,
                          JBool (negb (Task.completed item)))])))
  /\ (forall id completed,
        In id (ids (App.tasks s)) ->
        forall status updatedTask,
          let s' := App.after s (App.toggleComplete s id completed)
                      (answer status updatedTask) in
          ReplacedById id updatedTask (App.tasks s) (App.tasks s')
          /\ App.task s' = App.task s
          /\ App.editId s' = App.editId s
          /\ App.editedTask s' = App.editedTask s
          /\ App.filter s' = App.filter s
          /\ App.darkMode s' = App.darkMode s).
Proof.
  split; [|split].
  - intros id completed Habs. apply find_id_None in Habs.
    unfold App.after, App.effects, App.request, App.toggleComplete.
    rewrite Habs. split; reflexivity.
  - intros item Hnd Hin. unfold App.onPressToggle.
    apply toggleComplete_request. now apply find_id_NoDup.
  - intros id completed Hin status updatedTask.
    unfold App.after, App.effects, App.toggleComplete.
    destruct (find _ (App.tasks s)) as [taskToUpdate|] eqn:Hfind.
    + simpl. split; [apply map_replace_in_place | repeat split].
    + exfalso. unfold ids in Hin. apply in_map_iff in Hin as (t & Ht & Hin).
      exact (proj1 (find_id_None _ _) Hfind t Hin Ht).
Qed.

Lemma toggleComplete_in_place_witness :
  App.request (App.onPressToggle (state_of [task_A] [] None []) task_A)
  = Some (mkRequest PUT (API_URL_item (IdNum 1)) json_headers
            (Some [("title"%string, JString (JsString.lit "A"));
                   ("completed"%string, JBool true)]))
  /\ ReplacedById (IdNum 1) task_A_done [task_A]
       (App.tasks (App.after (state_of [task_A] [] None [])
                     (App.toggleComplete (state_of [task_A] [] None []) (IdNum 1) false)
                     (answer 200 task_A_done)))
  /\ App.request (App.toggleComplete (state_of [task_A] [] None []) (IdNum 2) false)
     = None.
Proof.
  pose proof (toggleComplete_in_place (state_of [task_A] [] None []))
    as (Habsent & Hpress & Hdone).
  split; [|split].
  - apply (Hpress task_A).
    + repeat constructor. simpl. tauto.
    + simpl. tauto.
  - apply (Hdone (IdNum 1) false). simpl. tauto.
  - apply (Habsent (IdNum 2) false).
    simpl. intros t [<-|[]]. discriminate.
Defined.

(** Why the ids have to be distinct in [toggleComplete_in_place].  On a list
    in which two tasks share an id, which a server that keeps ids apart
    never produces, pressing the toggle of the second one sends the title
    of the first (the one [find] returns) with the negated flag of the
    second (the one the row passes): the title and negated flag of neither
    task. *)
Lemma toggleComplete_shared_id :
  In (Task.mk (IdNum 1) (JsString.lit "B") true)
     (App.tasks (state_of [task_A; Task.mk (IdNum 1) (JsString.lit "B") true] [] None []))
  /\ App.request
       (App.onPressToggle
          (state_of [task_A; Task.mk (IdNum 1) (JsString.lit "B") true] [] None [])
          (Task.mk (IdNum 1) (JsString.lit "B") true))
     = Some (mkRequest PUT (API_URL_item (IdNum 1)) json_headers
               (Some [("title"%string, JString (JsString.lit "A"));
                      ("completed"%string, JBool false)]))
  /\ ~ exists t,
         In t (App.tasks
                 (state_of [task_A; Task.mk (IdNum 1) (JsString.lit "B") true] [] None []))
         /\ Task.id t = IdNum 1
         /\ App.request
              (App.onPressToggle
                 (state_of [task_A; Task.mk (IdNum 1) (JsString.lit "B") true] [] None [])
                 (Task.mk (IdNum 1) (JsString.lit "B") true))
            = Some (mkRequest PUT (API_URL_item (IdNum 1)) json_headers
                      (Some [("title"%string, JString (Task.title t));
                             ("completed"%string,
                              JBool (negb (Task.completed t)))])).
Proof.
  split; [simpl; tauto|]. split; [reflexivity|].
  intros (t & Hin & _ & Hreq). simpl in Hin.
  destruct Hin as [<-|[<-|[]]]; vm_compute in Hreq; discriminate.
Qed.

(* ------------------------------------------------------------------ *)
(** ** Remove *)

(** C6, as the code has it.  [removeTask] issues a DELETE to the item.  Once
    the server has answered, with whatever status and body, the list is the
    old list without the tasks that have the id:
    a task is in it exactly when it was listed and has another id, the
    tasks kept are in their old order, one task is gone when the ids are
    pairwise distinct and the id was listed, and the rest of the state is
    untouched.  On a network error the state is the one it was, so the list
    still has the id if it had it. *)
Theorem removeTask_removes_by_id (R : Type) (s : App.State) (id : task_id) :
  App.request (@App.removeTask s R id)
  = Some (mkRequest DELETE (API_URL_item id) [] None)
  /\ (forall r : Response R,
        let s' := App.after s (App.removeTask s id) (Responded r) in
        (forall t, In t (App.tasks s') <-> In t (App.tasks s) /\ Task.id t <> id)
        /\ Subseq (App.tasks s') (App.tasks s)
        /\ (NoDup (ids (App.tasks s)) -> In id (ids (App.tasks s)) ->
              S (List.length (App.tasks s')) = List.length (App.tasks s))
        /\ App.task s' = App.task s
        /\ App.editId s' = App.editId s
        /\ App.editedTask s' = App.editedTask s
        /\ App.filter s' = App.filter s
        /\ App.darkMode s' = App.darkMode s)
  /\ (let s' := App.after s (@App.removeTask s R id) NetworkError in
      s' = s
      /\ (In id (ids (App.tasks s)) -> In id (ids (App.tasks s')))).
Proof.
  split; [reflexivity|]. split.
  - intros r. simpl. split; [|split; [|split]].
    + intros t. rewrite filter_In, negb_true_iff, strict_eq_false. reflexivity.
    + auto with tasks.
    + apply filter_remove_length.
    + repeat split.
  - simpl. unfold App.after. simpl. tauto.
Qed.

Lemma removeTask_removes_by_id_witness :
  S (List.length
       (App.tasks (App.after (state_of [task_A; task_B] [] None [])
                     (App.removeTask (state_of [task_A; task_B] [] None []) (IdNum 1))
                     (@garbage Task.t 204))))
  = List.length (App.tasks (state_of [task_A; task_B] [] None []))
  /\ In (IdNum 1)
        (ids (App.tasks
                (App.after (state_of [task_A; task_B] [] None [])
                   (@App.removeTask (state_of [task_A; task_B] [] None []) Task.t
                      (IdNum 1))
                   NetworkError))).
Proof.
  pose proof (removeTask_removes_by_id Task.t
                (state_of [task_A; task_B] [] None []) (IdNum 1))
    as (_ & Hdone & Hfail).
  split.
  - apply (Hdone (mkResponse 204 None)).
    + repeat constructor; simpl; intuition discriminate.
    + simpl. tauto.
  - apply Hfail. simpl. tauto.
Defined.

(** C6, as stated, fails: a DELETE answered with status 500 is a failed
    operation, yet [removeTask] neither reads the status nor the body; the
    task is removed and the list no longer has the id. *)
Lemma failed_delete_removes_task :
  operation_failed (@garbage Task.t 500) = true
  /\ In (IdNum 1) (ids (App.tasks (state_of [task_A; task_B] [] None [])))
  /\ App.tasks (App.after (state_of [task_A; task_B] [] None [])
                  (App.removeTask (state_of [task_A; task_B] [] None []) (IdNum 1))
                  (@garbage Task.t 500))
     = [task_B]
  /\ ~ In (IdNum 1)
         (ids (App.tasks
                 (App.after (state_of [task_A; task_B] [] None [])
                    (App.removeTask (state_of [task_A; task_B] [] None []) (IdNum 1))
                    (@garbage Task.t 500)))).
Proof.
  split; [reflexivity|]. split; [simpl; tauto|]. split; [reflexivity|].
  simpl. intuition discriminate.
Qed.

(* ------------------------------------------------------------------ *)
(** ** Cancel edit *)

(** The CANCEL button calls [setEditId(null)] and nothing else: it issues
    no request, clears the edit target and keeps every other cell of the
    state, the edit text among them. *)
Lemma onPressCancel_effect (s : App.State) (net : network Task.t) :
  App.request App.onPressCancel = None
  /\ App.after s App.onPressCancel net
     = App.mkState (App.tasks s) (App.task s) None (App.editedTask s)
         (App.filter s) (App.darkMode s).
Proof. split; reflexivity. Qed.

(** C7, on the code.  With task 1 under edit and the edit text ["A2"],
    CANCEL issues no request, leaves the list as it is and clears the edit
    target, but the edit text is still ["A2"] afterwards, where SAVE
    ([saveEdit]) resets it to the empty string. *)
Theorem onPressCancel_keeps_edit_text :
  App.request App.onPressCancel = None
  /\ forall net,
       App.after (state_of [task_A] [] (Some (IdNum 1)) (JsString.lit "A2"))
         App.onPressCancel net
       = state_of [task_A] [] None (JsString.lit "A2")
       /\ App.editedTask
            (App.after (state_of [task_A] [] (Some (IdNum 1)) (JsString.lit "A2"))
               App.onPressCancel net)
          <> JsString.lit "".
Proof.
  split; [reflexivity|]. intros net. split; [reflexivity|].
  vm_compute. discriminate.
Qed.

(* ------------------------------------------------------------------ *)
(** ** Failures *)

(** C1, as the code has it.  When the fetch promise rejects (a network
    error), [addTask], [toggleComplete], [saveEdit] and [removeTask] leave
    the whole state, and so the list, the pending text, the edit target and
    the edit text, as it was; so do [addTask], [toggleComplete] and
    [saveEdit], which parse the body, when the body is not JSON, whatever
    the status. *)
Theorem failure_leaves_state (s : App.State) :
  (App.after s (App.addTask s) NetworkError = s
   /\ forall status, App.after s (App.addTask s) (garbage status) = s)
  /\ (forall id completed,
        App.after s (App.toggleComplete s id completed) NetworkError = s
        /\ forall status,
             App.after s (App.toggleComplete s id completed) (garbage status) = s)
  /\ (forall id,
        App.after s (App.saveEdit s id) NetworkError = s
        /\ forall status, App.after s (App.saveEdit s id) (garbage status) = s)
  /\ (forall (R : Type) id, App.after s (@App.removeTask s R id) NetworkError = s).
Proof.
  unfold App.after, App.effects.
  split; [|split; [|split]].
  - unfold App.addTask. destruct (negb _); split; reflexivity.
  - intros id completed. unfold App.toggleComplete.
    destruct (find _ _); split; reflexivity.
  - intros id. unfold App.saveEdit. destruct (negb _); split; reflexivity.
  - reflexivity.
Qed.

(** C1, as stated, fails: the status is never read, and [removeTask] does
    not read the body either.  A DELETE answered with status 500 removes
    the task from the list, and a POST answered with status 500 and a JSON
    body appends that body to the list and clears the pending text. *)
Lemma failed_operation_changes_state :
  (operation_failed (@garbage Task.t 500) = true
   /\ App.tasks (App.after (state_of [task_A] [] None [])
                   (App.removeTask (state_of [task_A] [] None []) (IdNum 1))
                   (@garbage Task.t 500))
      <> App.tasks (state_of [task_A] [] None []))
  /\ (operation_failed (answer 500 task_milk) = true
      /\ App.after (state_of [task_A] (JsString.lit "Buy milk") None [])
           (App.addTask (state_of [task_A] (JsString.lit "Buy milk") None []))
           (answer 500 task_milk)
         = state_of [task_A; task_milk] [] None []).
Proof.
  split; split; try reflexivity.
  vm_compute. discriminate.
Qed.

(* ------------------------------------------------------------------ *)
(** ** The initial fetch *)

(** C8, as the code has it.  [fetchTasks] issues a GET on the collection and
    stores the parsed array as the list, as the server ordered it, leaving
    the rest of the state alone.  On a network error or a body that is not
    JSON it leaves the state as it was, so after such a failure of the
    initial fetch the list is empty. *)
Theorem fetchTasks_stores_answer :
  App.request App.fetchTasks = Some (mkRequest GET API_URL [] None)
  /\ (forall s status data,
        App.after s App.fetchTasks (answer status data)
        = App.mkState data (App.task s) (App.editId s) (App.editedTask s)
            (App.filter s) (App.darkMode s))
  /\ (forall s,
        App.after s App.fetchTasks NetworkError = s
        /\ forall status, App.after s App.fetchTasks (garbage status) = s)
  /\ (forall systemDark,
        App.tasks (App.after (App.initial systemDark) App.fetchTasks NetworkError) = []
        /\ forall status,
             App.tasks (App.after (App.initial systemDark) App.fetchTasks
                          (garbage status)) = []).
Proof. repeat split. Qed.

(** C8, as stated, fails: an answer with status 500 and a JSON array as its
    body is a failed operation, and its body becomes the list. *)
Lemma failed_fetch_changes_list :
  operation_failed (answer 500 [task_A]) = true
  /\ App.tasks (App.after (App.initial false) App.fetchTasks (answer 500 [task_A]))
     = [task_A]
  /\ App.tasks (App.after (App.initial false) App.fetchTasks (answer 500 [task_A]))
     <> App.tasks (App.initial false).
Proof. repeat split. vm_compute. discriminate. Qed.

(* ------------------------------------------------------------------ *)
(** ** Begin edit *)

(** EDIT on a row makes its task the edit target and seeds the edit text
    with its title, whatever edit was open before. *)
Lemma onPressEdit_seeds (s : App.State) (item : Task.t) (net : network Task.t) :
  App.request (App.onPressEdit item) = None
  /\ App.after s (App.onPressEdit item) net
     = App.mkState (App.tasks s) (App.task s) (Some (Task.id item)) (Task.title item)
         (App.filter s) (App.darkMode s).
Proof. split; reflexivity. Qed.

(* ------------------------------------------------------------------ *)
(** ** More on the guards *)

Lemma forallb_false_iff {A : Type} (p : A -> bool) (l : list A) :
  forallb p l <> true <-> exists x, In x l /\ p x = false.
Proof.
  induction l as [|a l IH]; simpl.
  - split; [congruence | intros (x & [] & _)].
  - destruct (p a) eqn:E; simpl.
    + rewrite IH. split.
      * intros (x & Hin & Hx). exists x. tauto.
      * intros (x & [->|Hin] & Hx); [congruence | exists x; tauto].
    + split; [|discriminate]. intros _. exists a. tauto.
Qed.

Lemma request_guarded (R : Type) (x : jsstring) (req : Request)
    (resume : network R -> list App.effect) :
  App.request (if negb (JsString.truthy (JsString.trim x))
               then App.Sync [] else App.Async req resume) <> None
  <-> JsString.trim x <> [].
Proof.
  destruct (JsString.trim x); simpl; split; congruence.
Qed.

(** [addTask] issues its request exactly when the pending text holds a code
    unit that is not white space, and [saveEdit] exactly when the edit text
    does: an empty text and a text of spaces, tabs or line breaks only are
    the texts that send nothing. *)
Theorem guards_pass_iff_visible_text (s : App.State) (id : task_id) :
  (App.request (App.addTask s) <> None
   <-> exists c, In c (App.task s) /\ JsString.isWhiteSpace c = false)
  /\ (App.request (App.saveEdit s id) <> None
      <-> exists c, In c (App.editedTask s) /\ JsString.isWhiteSpace c = false).
Proof.
  unfold App.addTask, App.saveEdit.
  split; rewrite request_guarded, <- forallb_false_iff, trim_nil_iff; reflexivity.
Qed.

(* ------------------------------------------------------------------ *)
(** ** More on the filter *)

Lemma JsString_eqb_neq (a b : jsstring) : a <> b -> JsString.eqb a b = false.
Proof.
  intros H. destruct (JsString.eqb a b) eqn:E; [|reflexivity].
  apply JsString_eqb_eq in E. contradiction.
Qed.

(** The state [s] seen through another filter. *)
Lemma filteredTasks_setFilter (s : App.State) (f : jsstring) :
  App.filteredTasks (App.apply s (App.setFilter f))
  = List.filter
      (fun t =>
         if JsString.eqb f (JsString.lit "completed") then Task.completed t
         else if JsString.eqb f (JsString.lit "pending")
              then negb (Task.completed t)
              else true)
      (App.tasks s).
Proof. reflexivity. Qed.

(** The ['completed'] and the ['pending'] projection split the list: every
    task is in exactly one of them, so the two together are a rearrangement
    of the whole list and their lengths add up to its length. *)
Theorem completed_pending_partition (s : App.State) :
  Permutation
    (App.filteredTasks (App.apply s (App.setFilter (JsString.lit "completed")))
     ++ App.filteredTasks (App.apply s (App.setFilter (JsString.lit "pending"))))
    (App.tasks s)
  /\ List.length
       (App.filteredTasks (App.apply s (App.setFilter (JsString.lit "completed"))))
     + List.length
         (App.filteredTasks (App.apply s (App.setFilter (JsString.lit "pending"))))
     = List.length (App.tasks s)
  /\ (forall t,
        In t (App.filteredTasks (App.apply s (App.setFilter (JsString.lit "completed"))))
        -> ~ In t (App.filteredTasks
                     (App.apply s (App.setFilter (JsString.lit "pending"))))).
Proof.
  rewrite !filteredTasks_setFilter. simpl.
  assert (Hperm : Permutation
            (List.filter (fun t => Task.completed t) (App.tasks s)
             ++ List.filter (fun t => negb (Task.completed t)) (App.tasks s))
            (App.tasks s)).
  { induction (App.tasks s) as [|x l IH]; simpl; [constructor|].
    destruct (Task.completed x); simpl.
    - now constructor.
    - symmetry. apply Permutation_cons_app. now symmetry. }
  split; [exact Hperm|]. split.
  - rewrite <- length_app. now apply Permutation_length.
  - intros t H1 H2. apply filter_In in H1 as [_ H1]. apply filter_In in H2 as [_ H2].
    rewrite H1 in H2. discriminate.
Qed.

Lemma completed_pending_partition_witness :
  List.length
    (App.filteredTasks
       (App.apply (state_of [task_A; task_B; task_milk] [] None [])
          (App.setFilter (JsString.lit "completed"))))
  + List.length
      (App.filteredTasks
         (App.apply (state_of [task_A; task_B; task_milk] [] None [])
            (App.setFilter (JsString.lit "pending"))))
  = 3
  /\ ~ In task_B
         (App.filteredTasks
            (App.apply (state_of [task_A; task_B; task_milk] [] None [])
               (App.setFilter (JsString.lit "pending")))).
Proof.
  pose proof (completed_pending_partition
                (state_of [task_A; task_B; task_milk] [] None []))
    as (_ & Hlen & Hsplit).
  split; [exact Hlen|].
  apply Hsplit. simpl. tauto.
Defined.

(** A filter value other than ['completed'] and ['pending'] takes the last
    branch of the predicate: the projection is the whole list. *)
Theorem other_filter_shows_all (s : App.State) :
  App.filter s <> JsString.lit "completed" ->
  App.filter s <> JsString.lit "pending" ->
  App.filteredTasks s = App.tasks s.
Proof.
  intros Hc Hp. unfold App.filteredTasks.
  rewrite (JsString_eqb_neq _ _ Hc), (JsString_eqb_neq _ _ Hp).
  apply filter_true.
Qed.

Lemma other_filter_shows_all_witness :
  App.filteredTasks
    (App.mkState [task_A; task_B] [] None [] (JsString.lit "Completed") false)
  = [task_A; task_B].
Proof.
  apply (other_filter_shows_all
           (App.mkState [task_A; task_B] [] None [] (JsString.lit "Completed") false));
    vm_compute; discriminate.
Defined.

(* ------------------------------------------------------------------ *)
(** ** Handlers in flight at once *)

(** A handler writes the list it computed from the list of its own render:
    what the list has become in the meantime does not enter. *)
Lemma removeTask_overwrites (R : Type) (s cur : App.State) (id : task_id)
    (r : Response R) :
  App.tasks (App.commit cur (App.effects (App.removeTask s id) (Responded r)))
  = List.filter (fun t => negb (strict_eq (Task.id t) id)) (App.tasks s).
Proof. reflexivity. Qed.

Lemma addTask_overwrites (s cur : App.State) (status : Z) (newTask : Task.t) :
  JsString.trim (App.task s) <> [] ->
  App.commit cur (App.effects (App.addTask s) (answer status newTask))
  = App.mkState (App.tasks s ++ [newTask]) (JsString.lit "") (App.editId cur)
      (App.editedTask cur) (App.filter cur) (App.darkMode cur).
Proof. intros H. pass_guard H. reflexivity. Qed.

(** Two deletions pressed on the same render, of different ids: once both
    have been answered the list is the one the second computed, so the
    tasks the first one removed are back in it. *)
Theorem overlapping_deletes_lose_first (R : Type) (s : App.State)
    (id1 id2 : task_id) (r1 r2 : Response R) :
  id1 <> id2 ->
  let s' := overlapped s (App.removeTask s id1) (Responded r1)
              (App.removeTask s id2) (Responded r2) in
  App.tasks s'
  = List.filter (fun t => negb (strict_eq (Task.id t) id2)) (App.tasks s)
  /\ forall t, In t (App.tasks s) -> Task.id t = id1 -> In t (App.tasks s').
Proof.
  intros Hne. unfold overlapped. cbv zeta. rewrite removeTask_overwrites.
  split; [reflexivity|].
  intros t Hin Hid. apply filter_In. split; [assumption|].
  apply negb_true_iff, strict_eq_false. congruence.
Qed.

Lemma overlapping_deletes_lose_first_witness :
  In task_A
     (App.tasks
        (overlapped (state_of [task_A; task_B] [] None [])
           (App.removeTask (state_of [task_A; task_B] [] None []) (IdNum 1))
           (@garbage Task.t 204)
           (App.removeTask (state_of [task_A; task_B] [] None []) (IdNum 2))
           (@garbage Task.t 204))).
Proof.
  apply (proj2 (overlapping_deletes_lose_first Task.t
                  (state_of [task_A; task_B] [] None []) (IdNum 1) (IdNum 2)
                  (mkResponse 204 None) (mkResponse 204 None)
                  ltac:(discriminate)) task_A).
  - simpl. tauto.
  - reflexivity.
Defined.

(** An ADD pressed on the first render, before the initial fetch has been
    answered, and answered after it: the list ends up holding the created
    task alone, whatever the fetch had stored. *)
Theorem early_add_drops_fetched_list (systemDark : bool) (pending : jsstring)
    (data : list Task.t) (newTask : Task.t) (status1 status2 : Z) :
  JsString.trim pending <> [] ->
  let s := App.apply (App.initial systemDark) (App.setTask pending) in
  App.tasks (overlapped s App.fetchTasks (answer status1 data)
               (App.addTask s) (answer status2 newTask))
  = [newTask].
Proof.
  intros H. cbv zeta. unfold overlapped.
  rewrite addTask_overwrites by exact H. reflexivity.
Qed.

Lemma early_add_drops_fetched_list_witness :
  App.tasks
    (overlapped (App.apply (App.initial false) (App.setTask (JsString.lit "Buy milk")))
       App.fetchTasks (answer 200 [task_A; task_B])
       (App.addTask (App.apply (App.initial false)
                       (App.setTask (JsString.lit "Buy milk"))))
       (answer 201 task_milk))
  = [task_milk].
Proof.
  apply (early_add_drops_fetched_list false (JsString.lit "Buy milk")
           [task_A; task_B] task_milk 200 201).
  vm_compute. discriminate.
Defined.

(** Text typed into the input while the create request is in flight is
    discarded when the answer arrives: the pending text is reset to the
    empty string, and the title that was posted is the text of the render
    in which ADD was pressed. *)
Theorem typing_during_add_is_discarded (s : App.State) (typed : jsstring)
    (status : Z) (newTask : Task.t) :
  JsString.trim (App.task s) <> [] ->
  let typing := App.apply s (App.setTask typed) in
  let s' := App.commit typing (App.effects (App.addTask s) (answer status newTask)) in
  App.task typing = typed
  /\ App.task s' = JsString.lit ""
  /\ App.tasks s' = App.tasks s ++ [newTask]
  /\ exists obj,
       option_map body (App.request (App.addTask s)) = Some (Some obj)
       /\ property "title" obj = Some (JString (App.task s)).
Proof.
  intros H. cbv zeta.
  rewrite addTask_overwrites by exact H.
  split; [reflexivity|]. split; [reflexivity|]. split; [reflexivity|].
  eexists. pass_guard H. split; reflexivity.
Qed.

Lemma typing_during_add_is_discarded_witness :
  App.task
    (App.commit
       (App.apply (state_of [] (JsString.lit "Buy milk") None [])
          (App.setTask (JsString.lit "Buy milk and eggs")))
       (App.effects (App.addTask (state_of [] (JsString.lit "Buy milk") None []))
          (answer 201 task_milk)))
  = JsString.lit "".
Proof.
  apply (typing_during_add_is_discarded
           (state_of [] (JsString.lit "Buy milk") None [])
           (JsString.lit "Buy milk and eggs") 201 task_milk).
  vm_compute. discriminate.
Defined.

(* ------------------------------------------------------------------ *)
(** ** Handlers one after the other *)

Lemma filter_swap {A : Type} (p q : A -> bool) (l : list A) :
  List.filter p (List.filter q l) = List.filter q (List.filter p l).
Proof.
  induction l as [|x l IH]; simpl; [reflexivity|].
  destruct (p x) eqn:P, (q x) eqn:Q; simpl; rewrite ?P, ?Q, IH; reflexivity.
Qed.

Lemma filter_twice {A : Type} (p : A -> bool) (l : list A) :
  List.filter p (List.filter p l) = List.filter p l.
Proof.
  induction l as [|x l IH]; simpl; [reflexivity|].
  destruct (p x) eqn:P; simpl; rewrite ?P, IH; reflexivity.
Qed.

Lemma filter_keeps_all {A : Type} (p : A -> bool) (l : list A) :
  (forall x, In x l -> p x = true) -> List.filter p l = l.
Proof.
  induction l as [|x l IH]; simpl; intros H; [reflexivity|].
  rewrite (H x) by tauto. f_equal. apply IH. intros y Hy. apply H. tauto.
Qed.

(** Deletions answered one after the other, each pressed on the render the
    one before left, can be done in either order with the same final state,
    and deleting an id a second time changes nothing. *)
Theorem deletes_commute (R : Type) (s : App.State) (id1 id2 : task_id)
    (r1 r2 r3 r4 : Response R) :
  let a := App.after s (App.removeTask s id1) (Responded r1) in
  let b := App.after s (App.removeTask s id2) (Responded r2) in
  App.after a (App.removeTask a id2) (Responded r3)
  = App.after b (App.removeTask b id1) (Responded r4)
  /\ App.after a (App.removeTask a id1) (Responded r3) = a.
Proof.
  cbv zeta. unfold App.after. simpl. split; f_equal.
  - apply filter_swap.
  - apply filter_twice.
Qed.

(** A create followed by the deletion of the created task gives the list
    back, provided the id the server assigned is not the id of a listed
    task. *)
Theorem add_then_delete_restores_list (R : Type) (s : App.State) (status : Z)
    (newTask : Task.t) (r : Response R) :
  JsString.trim (App.task s) <> [] ->
  ~ In (Task.id newTask) (ids (App.tasks s)) ->
  let a := App.after s (App.addTask s) (answer status newTask) in
  App.tasks (App.after a (App.removeTask a (Task.id newTask)) (Responded r))
  = App.tasks s.
Proof.
  intros H Hfresh. cbv zeta. unfold App.after.
  rewrite !addTask_overwrites by exact H. simpl.
  rewrite filter_app. simpl. rewrite strict_eq_refl. simpl.
  rewrite app_nil_r. apply filter_keeps_all.
  intros t Ht. apply negb_true_iff, strict_eq_false.
  intros Hid. apply Hfresh. rewrite <- Hid. unfold ids. now apply in_map.
Qed.

Lemma add_then_delete_restores_list_witness :
  App.tasks
    (App.after
       (App.after (state_of [task_A; task_B] (JsString.lit "Buy milk") None [])
          (App.addTask (state_of [task_A; task_B] (JsString.lit "Buy milk") None []))
          (answer 201 task_milk))
       (App.removeTask
          (App.after (state_of [task_A; task_B] (JsString.lit "Buy milk") None [])
             (App.addTask (state_of [task_A; task_B] (JsString.lit "Buy milk") None []))
             (answer 201 task_milk))
          (Task.id task_milk))
       (@garbage Task.t 204))
  = [task_A; task_B].
Proof.
  apply (add_then_delete_restores_list Task.t
           (state_of [task_A; task_B] (JsString.lit "Buy milk") None [])
           201 task_milk (mkResponse 204 None)).
  - vm_compute. discriminate.
  - simpl. intuition discriminate.
Defined.

(* ------------------------------------------------------------------ *)
(** ** Ids stay apart *)

Lemma ids_replace (ts : list Task.t) (id : task_id) (u : Task.t) :
  Task.id u = id ->
  ids (map (fun t => if strict_eq (Task.id t) id then u else t) ts) = ids ts.
Proof.
  intros Hu. unfold ids. rewrite map_map. apply map_ext_in.
  intros t _. destruct (strict_eq (Task.id t) id) eqn:E; [|reflexivity].
  apply strict_eq_true in E. congruence.
Qed.

Lemma NoDup_ids_filter (p : Task.t -> bool) (ts : list Task.t) :
  NoDup (ids ts) -> NoDup (ids (List.filter p ts)).
Proof.
  unfold ids. induction ts as [|x ts IH]; simpl; intros H; [constructor|].
  inversion H as [|? ? Hx Hts]; subst.
  destruct (p x); simpl; [|now apply IH].
  constructor; [|now apply IH].
  intros Hin. apply Hx. apply in_map_iff in Hin as (t & Ht & Hin).
  apply filter_In in Hin as [Hin _]. rewrite <- Ht. now apply in_map.
Qed.

Lemma NoDup_ids_append (ts : list Task.t) (t : Task.t) :
  NoDup (ids ts) -> ~ In (Task.id t) (ids ts) -> NoDup (ids (ts ++ [t])).
Proof.
  intros Hnd Hfresh. unfold ids. rewrite map_app. simpl.
  apply (Permutation_NoDup (Permutation_cons_append _ _)).
  now constructor.
Qed.

(** An update answered with a task that has the id of the request leaves
    the ids of the list, position by position, as they were: this holds for
    [toggleComplete] and for [saveEdit], whatever the list. *)
Theorem update_keeps_ids (s : App.State) (id : task_id) (completed : bool)
    (status : Z) (updatedTask : Task.t) :
  Task.id updatedTask = id ->
  ids (App.tasks (App.after s (App.toggleComplete s id completed)
                    (answer status updatedTask)))
  = ids (App.tasks s)
  /\ ids (App.tasks (App.after s (App.saveEdit s id) (answer status updatedTask)))
     = ids (App.tasks s).
Proof.
  intros Hu. unfold App.after, App.effects, App.toggleComplete, App.saveEdit.
  split.
  - destruct (find _ _); simpl; [now apply ids_replace | reflexivity].
  - destruct (negb _); simpl; [reflexivity | now apply ids_replace].
Qed.

Lemma update_keeps_ids_witness :
  ids (App.tasks
         (App.after (state_of [task_A; task_B] [] None [])
            (App.toggleComplete (state_of [task_A; task_B] [] None []) (IdNum 1) false)
            (answer 200 task_A_done)))
  = [IdNum 1; IdNum 2].
Proof.
  apply (proj1 (update_keeps_ids (state_of [task_A; task_B] [] None [])
                  (IdNum 1) false 200 task_A_done eq_refl)).
Defined.

(** A toggle or a save that is not answered with a task leaves the list. *)
Lemma failure_free_toggle (s : App.State) (item : Task.t) :
  App.tasks (View.handle s (View.PressToggle item NetworkError)) = App.tasks s
  /\ forall status,
       App.tasks (View.handle s (View.PressToggle item (garbage status)))
       = App.tasks s.
Proof.
  unfold View.handle, App.onPressToggle, App.after, App.effects, App.toggleComplete.
  destruct (find _ _); repeat split.
Qed.

Lemma failure_free_save (s : App.State) (item : Task.t) :
  App.tasks (View.handle s (View.PressSave item NetworkError)) = App.tasks s
  /\ forall status,
       App.tasks (View.handle s (View.PressSave item (garbage status)))
       = App.tasks s.
Proof.
  unfold View.handle, App.onPressSave, App.after, App.effects, App.saveEdit.
  destruct (negb _); repeat split.
Qed.

Lemma handle_keeps_ids_apart (s : App.State) (ev : View.event) :
  NoDup (ids (App.tasks s)) -> server_keeps_ids s ev ->
  NoDup (ids (App.tasks (View.handle s ev))).
Proof.
  intros Hnd Hsrv.
  destruct ev as [v|net| |type|item net|item v|item net|item|item|item net];
    try exact Hnd.
  - (* ADD *)
    unfold View.handle, App.after, App.effects, App.addTask.
    destruct (negb _); [exact Hnd|].
    destruct net as [|[status [t|]]]; simpl in *; try exact Hnd.
    now apply NoDup_ids_append.
  - (* toggle *)
    destruct net as [|[status [t|]]]; simpl in Hsrv.
    + now rewrite (proj1 (failure_free_toggle s item)).
    + unfold View.handle, App.onPressToggle.
      fold (answer status t).
      now rewrite (proj1 (update_keeps_ids s _ (Task.completed item) status t Hsrv)).
    + fold (@garbage Task.t status).
      now rewrite (proj2 (failure_free_toggle s item)).
  - (* SAVE *)
    destruct net as [|[status [t|]]]; simpl in Hsrv.
    + now rewrite (proj1 (failure_free_save s item)).
    + unfold View.handle, App.onPressSave.
      fold (answer status t).
      now rewrite (proj2 (update_keeps_ids s _ false status t Hsrv)).
    + fold (@garbage Task.t status).
      now rewrite (proj2 (failure_free_save s item)).
  - (* DELETE *)
    destruct net as [|r]; [exact Hnd|].
    unfold View.handle, App.onPressDelete, App.after. rewrite removeTask_overwrites.
    now apply NoDup_ids_filter.
Qed.

(** When the list has pairwise distinct ids and the server keeps ids apart
    (a create returns an id no listed task has, an update returns the id
    it was asked for), the ids are pairwise distinct after every sequence
    of offered events, whichever of the requests fail. *)
Theorem ids_stay_apart (evs : list View.event) (s : App.State) :
  NoDup (ids (App.tasks s)) -> well_served s evs ->
  NoDup (ids (App.tasks (play s evs))).
Proof.
  revert s. induction evs as [|ev evs IH]; simpl; intros s Hnd Hrun; [exact Hnd|].
  destruct Hrun as (_ & Hsrv & Hrest).
  apply IH; [|exact Hrest]. now apply handle_keeps_ids_apart.
Qed.

Lemma ids_stay_apart_witness :
  NoDup
    (ids (App.tasks
            (play (state_of [task_A; task_B] (JsString.lit "Buy milk") None [])
               [View.PressAdd (answer 201 task_milk);
                View.PressToggle task_A (answer 200 task_A_done);
                View.PressDelete task_B (@garbage Task.t 204)]))).
Proof.
  apply (ids_stay_apart
           [View.PressAdd (answer 201 task_milk);
            View.PressToggle task_A (answer 200 task_A_done);
            View.PressDelete task_B (@garbage Task.t 204)]
           (state_of [task_A; task_B] (JsString.lit "Buy milk") None [])).
  - repeat constructor; simpl; intuition discriminate.
  - simpl. intuition discriminate.
Defined.

(* ------------------------------------------------------------------ *)
(** ** The rows *)

Lemma showsInput_renderItem (s : App.State) (item : Task.t) :
  View.showsInput (View.renderItem s item) = View.isEditing s item.
Proof.
  unfold View.showsInput, View.renderItem. simpl.
  destruct (View.isEditing s item); reflexivity.
Qed.

Lemma filter_map_length {A B : Type} (p : B -> bool) (g : A -> B) (l : list A) :
  List.length (List.filter p (map g l))
  = List.length (List.filter (fun a => p (g a)) l).
Proof.
  induction l as [|x l IH]; simpl; [reflexivity|].
  destruct (p (g x)); simpl; now rewrite IH.
Qed.

Lemma filter_none {A : Type} (p : A -> bool) (l : list A) :
  (forall x, In x l -> p x = false) -> List.filter p l = [].
Proof.
  induction l as [|x l IH]; simpl; intros H; [reflexivity|].
  rewrite (H x) by tauto. apply IH. intros y Hy. apply H. tauto.
Qed.

Lemma count_id_le_1 (e : task_id) (ts : list Task.t) :
  NoDup (ids ts) ->
  List.length (List.filter (fun t => strict_eq e (Task.id t)) ts) <= 1.
Proof.
  unfold ids. induction ts as [|x ts IH]; simpl; intros H; [lia|].
  inversion H as [|? ? Hx Hts]; subst.
  destruct (strict_eq e (Task.id x)) eqn:E; [|now apply IH].
  apply strict_eq_true in E. subst e. simpl.
  rewrite filter_none; [simpl; lia|].
  intros t Ht. apply strict_eq_false. intros Hid. apply Hx.
  rewrite Hid. now apply in_map.
Qed.

(** A row shows the edit input only if its task has the id under edit, and
    then it shows the edit text; when the ids of the list are pairwise
    distinct at most one row does, and none does when no id is under
    edit. *)
Theorem at_most_one_row_edits (s : App.State) :
  NoDup (ids (App.tasks s)) ->
  List.length (List.filter View.showsInput (View.rows s)) <= 1
  /\ (forall r, In r (View.rows s) -> View.showsInput r = true ->
        App.editId s = Some (Task.id (View.item r))
        /\ View.body r = View.Editing (App.editedTask s))
  /\ (App.editId s = None -> List.filter View.showsInput (View.rows s) = []).
Proof.
  intros Hnd. unfold View.rows. split; [|split].
  - rewrite filter_map_length.
    rewrite (filter_ext _ (View.isEditing s) (showsInput_renderItem s)).
    unfold View.isEditing. destruct (App.editId s) as [e|].
    + apply count_id_le_1. unfold App.filteredTasks. now apply NoDup_ids_filter.
    + rewrite filter_none; [simpl; lia | reflexivity].
  - intros r Hr Hshow. apply in_map_iff in Hr as (it & <- & _).
    rewrite showsInput_renderItem in Hshow.
    unfold View.renderItem. simpl. rewrite Hshow. split; [|reflexivity].
    unfold View.isEditing in Hshow. destruct (App.editId s) as [e|]; [|discriminate].
    apply strict_eq_true in Hshow. now subst e.
  - intros Hnone. apply filter_none.
    intros r Hr. apply in_map_iff in Hr as (it & <- & _).
    rewrite showsInput_renderItem. unfold View.isEditing. now rewrite Hnone.
Qed.

Lemma at_most_one_row_edits_witness :
  List.length
    (List.filter View.showsInput
       (View.rows (state_of [task_A; task_B] [] (Some (IdNum 2)) (JsString.lit "B2"))))
  <= 1.
Proof.
  apply (at_most_one_row_edits
           (state_of [task_A; task_B] [] (Some (IdNum 2)) (JsString.lit "B2"))).
  repeat constructor; simpl; intuition discriminate.
Defined.

(** DELETE is offered by the rows that do not show the edit input only, so
    an offered deletion, however it is answered, keeps every task that has
    the id under edit and leaves the edit target as it is. *)
Theorem offered_delete_spares_edit_target (s : App.State) (item : Task.t)
    (net : network Task.t) (e : task_id) :
  View.offered s (View.PressDelete item net) ->
  App.editId s = Some e ->
  App.editId (View.handle s (View.PressDelete item net)) = Some e
  /\ forall t, In t (App.tasks s) -> Task.id t = e ->
       In t (App.tasks (View.handle s (View.PressDelete item net))).
Proof.
  intros [_ Hview] He. unfold View.isEditing in Hview. rewrite He in Hview.
  destruct net as [|r]; simpl; (split; [exact He|]); intros t Hin Hid.
  - exact Hin.
  - apply filter_In. split; [exact Hin|]. now rewrite Hid, Hview.
Qed.

Lemma offered_delete_spares_edit_target_witness :
  In task_B
     (App.tasks
        (View.handle (state_of [task_A; task_B] [] (Some (IdNum 2)) (JsString.lit "B2"))
           (View.PressDelete task_A (@garbage Task.t 204)))).
Proof.
  apply (proj2 (offered_delete_spares_edit_target
                  (state_of [task_A; task_B] [] (Some (IdNum 2)) (JsString.lit "B2"))
                  task_A (@garbage Task.t 204) (IdNum 2)
                  ltac:(simpl; tauto) eq_refl) task_B).
  - simpl. tauto.
  - reflexivity.
Defined.

(* ------------------------------------------------------------------ *)
(** ** Toggling under a filter *)

Lemma filter_replace_out (p : Task.t -> bool) (id : task_id) (u : Task.t)
    (ts : list Task.t) :
  p u = false ->
  List.filter p (map (fun t => if strict_eq (Task.id t) id then u else t) ts)
  = List.filter (fun t => negb (strict_eq (Task.id t) id)) (List.filter p ts).
Proof.
  intros Hu. induction ts as [|x ts IH]; simpl; [reflexivity|].
  destruct (strict_eq (Task.id x) id) eqn:E.
  - rewrite Hu. destruct (p x); simpl; rewrite ?E; simpl; exact IH.
  - destruct (p x); simpl; rewrite ?E; simpl; rewrite IH; reflexivity.
Qed.

Lemma toggle_listed (s : App.State) (item : Task.t) (status : Z) (u : Task.t) :
  In item (App.tasks s) ->
  App.after s (App.onPressToggle s item) (answer status u)
  = App.mkState
      (map (fun t => if strict_eq (Task.id t) (Task.id item) then u else t)
         (App.tasks s))
      (App.task s) (App.editId s) (App.editedTask s) (App.filter s) (App.darkMode s).
Proof.
  intros Hin. unfold App.onPressToggle, App.after, App.effects, App.toggleComplete.
  destruct (find _ _) eqn:Hfind; [reflexivity|].
  exfalso. exact (proj1 (find_id_None _ _) Hfind item Hin eq_refl).
Qed.

(** Under the filter ['pending'], toggling a shown task that the server
    returns completed takes it out of the projection and leaves the other
    rows as they were; likewise under ['completed'] when the server returns
    it not completed. *)
Theorem toggled_task_leaves_view (s : App.State) (item : Task.t) (status : Z)
    (updatedTask : Task.t) :
  In item (App.filteredTasks s) ->
  (App.filter s = JsString.lit "pending" /\ Task.completed updatedTask = true)
  \/ (App.filter s = JsString.lit "completed" /\ Task.completed updatedTask = false) ->
  let s' := App.after s (App.onPressToggle s item) (answer status updatedTask) in
  App.filteredTasks s'
  = List.filter (fun t => negb (strict_eq (Task.id t) (Task.id item)))
      (App.filteredTasks s)
  /\ ~ In item (App.filteredTasks s').
Proof.
  intros Hin Hcase. cbv zeta.
  assert (Hlisted : In item (App.tasks s)).
  { unfold App.filteredTasks in Hin. now apply filter_In in Hin. }
  rewrite (toggle_listed s item status updatedTask Hlisted).
  assert (Heq : App.filteredTasks
                  (App.mkState
                     (map (fun t => if strict_eq (Task.id t) (Task.id item)
                                    then updatedTask else t) (App.tasks s))
                     (App.task s) (App.editId s) (App.editedTask s) (App.filter s)
                     (App.darkMode s))
                = List.filter (fun t => negb (strict_eq (Task.id t) (Task.id item)))
                    (App.filteredTasks s)).
  { unfold App.filteredTasks. simpl. apply filter_replace_out.
    destruct Hcase as [[-> Hu]|[-> Hu]]; simpl; now rewrite Hu. }
  split; [exact Heq|].
  rewrite Heq. intros H. apply filter_In in H as [_ H].
  now rewrite strict_eq_refl in H.
Qed.

Lemma toggled_task_leaves_view_witness :
  App.filteredTasks
    (App.after
       (App.mkState [task_A; task_A2; task_B] [] None [] (JsString.lit "pending") false)
       (App.onPressToggle
          (App.mkState [task_A; task_A2; task_B] [] None [] (JsString.lit "pending")
             false)
          task_A)
       (answer 200 task_A_done))
  = List.filter (fun t => negb (strict_eq (Task.id t) (Task.id task_A)))
      (App.filteredTasks
         (App.mkState [task_A; task_A2; task_B] [] None [] (JsString.lit "pending")
            false)).
Proof.
  apply (toggled_task_leaves_view
           (App.mkState [task_A; task_A2; task_B] [] None [] (JsString.lit "pending")
              false)
           task_A 200 task_A_done).
  - simpl. tauto.
  - left. split; reflexivity.
Defined.

(* ------------------------------------------------------------------ *)
(** ** What is written to the console *)

(** A handler writes to the console exactly when its request was issued and
    [fetch] or, where the body is parsed, [response.json()] rejected: then
    it writes one line, its own message, and calls no setter.  An answer
    that is taken writes nothing, and neither does a handler stopped by its
    guard. *)
Theorem failures_are_logged_once (s : App.State) :
  (forall net,
      logs (App.effects App.fetchTasks net)
      = report (rejected net) "Error fetching tasks:"
      /\ (rejected net = true -> sets (App.effects App.fetchTasks net) = []))
  /\ (forall net,
        logs (App.effects (App.addTask s) net)
        = report (issued (App.addTask s) && rejected net) "Error adding task:"
        /\ (rejected net = true -> sets (App.effects (App.addTask s) net) = []))
  /\ (forall id completed net,
        logs (App.effects (App.toggleComplete s id completed) net)
        = report (issued (App.toggleComplete s id completed) && rejected net)
            "Error toggling task:"
        /\ (rejected net = true ->
            sets (App.effects (App.toggleComplete s id completed) net) = []))
  /\ (forall id net,
        logs (App.effects (App.saveEdit s id) net)
        = report (issued (App.saveEdit s id) && rejected net) "Error editing task:"
        /\ (rejected net = true -> sets (App.effects (App.saveEdit s id) net) = []))
  /\ (forall (R : Type) id (net : network R),
        logs (App.effects (App.removeTask s id) net)
        = report (unreachable net) "Error deleting task:"
        /\ (unreachable net = true ->
            sets (App.effects (App.removeTask s id) net) = [])).
Proof.
  unfold issued, App.request, App.addTask, App.saveEdit, App.toggleComplete.
  split; [|split; [|split; [|split]]].
  - intros [|[status [v|]]]; split; try reflexivity; discriminate.
  - destruct (negb _); intros [|[status [v|]]]; split; try reflexivity; discriminate.
  - intros id completed. destruct (find _ _);
      intros [|[status [v|]]]; split; try reflexivity; discriminate.
  - intros id. destruct (negb _);
      intros [|[status [v|]]]; split; try reflexivity; discriminate.
  - intros R id [|r]; split; try reflexivity; discriminate.
Qed.

Lemma failures_are_logged_once_witness :
  logs (App.effects (App.addTask (state_of [] (JsString.lit "Buy milk") None []))
          (garbage 502))
  = [App.console_error "Error adding task:"]
  /\ sets (App.effects (App.addTask (state_of [] (JsString.lit "Buy milk") None []))
             (garbage 502))
     = [].
Proof.
  pose proof (proj1 (proj2 (failures_are_logged_once
                              (state_of [] (JsString.lit "Buy milk") None [])))
                (garbage 502)) as [Hlog Hset].
  split; [exact Hlog | apply Hset; reflexivity].
Defined.

(* ------------------------------------------------------------------ *)
(** ** The filter on the screen *)

Lemma handle_filter (s : App.State) (ev : View.event) :
  App.filter (View.handle s ev)
  = match ev with
    | View.PressFilter type => type
    | _ => App.filter s
    end.
Proof.
  destruct ev as [v|net| |type|item net|item v|item net|item|item|item net];
    try reflexivity.
  - unfold View.handle, App.after, App.effects, App.addTask.
    destruct (negb _); [reflexivity|].
    destruct net as [|[status [u|]]]; reflexivity.
  - unfold View.handle, App.onPressToggle, App.after, App.effects, App.toggleComplete.
    destruct (find _ _); [|reflexivity].
    destruct net as [|[status [u|]]]; reflexivity.
  - unfold View.handle, App.onPressSave, App.after, App.effects, App.saveEdit.
    destruct (negb _); [reflexivity|].
    destruct net as [|[status [u|]]]; reflexivity.
  - destruct net as [|r]; reflexivity.
Qed.

(** On every screen the user can reach, the filter is one of the three
    values of the filter buttons, and exactly one button is drawn as the
    active one. *)
Theorem filter_is_a_button (s : App.State) :
  View.reachable s ->
  In (App.filter s) View.filterTypes
  /\ List.length (List.filter (View.isActive s) View.filterTypes) = 1.
Proof.
  intros Hreach.
  assert (Hin : In (App.filter s) View.filterTypes).
  { induction Hreach as [systemDark net|s ev Hreach IH Hoff].
    - destruct net as [|[status [data|]]]; simpl; tauto.
    - rewrite handle_filter. destruct ev; try exact IH. exact Hoff. }
  split; [exact Hin|].
  unfold View.isActive.
  destruct Hin as [<-|[<-|[<-|[]]]]; reflexivity.
Qed.

Lemma filter_is_a_button_witness :
  In (App.filter
        (View.handle (App.after (App.initial false) App.fetchTasks (answer 200 [task_A]))
           (View.PressFilter (JsString.lit "pending"))))
     View.filterTypes
  /\ List.length
       (List.filter
          (View.isActive
             (View.handle
                (App.after (App.initial false) App.fetchTasks (answer 200 [task_A]))
                (View.PressFilter (JsString.lit "pending"))))
          View.filterTypes)
     = 1.
Proof.
  apply (filter_is_a_button
           (View.handle (App.after (App.initial false) App.fetchTasks (answer 200 [task_A]))
              (View.PressFilter (JsString.lit "pending")))).
  apply View.reach_event.
  - apply View.reach_mount.
  - simpl. tauto.
Defined.

(* ------------------------------------------------------------------ *)
(** ** Deleting an id that is not listed *)

(** [removeTask] does not look the id up either: for an id no listed task
    has it still issues the DELETE, and whatever the answer the whole state
    is the one it was. *)
Theorem removeTask_absent_id (R : Type) (s : App.State) (id : task_id)
    (net : network R) :
  (forall t, In t (App.tasks s) -> Task.id t <> id) ->
  App.request (@App.removeTask s R id)
  = Some (mkRequest DELETE (API_URL_item id) [] None)
  /\ App.after s (App.removeTask s id) net = s.
Proof.
  intros Habs. split; [reflexivity|].
  destruct net as [|r]; [reflexivity|].
  unfold App.after. simpl. rewrite filter_keeps_all.
  - apply state_eta.
  - intros t Ht. apply negb_true_iff, strict_eq_false. now apply Habs.
Qed.

Lemma removeTask_absent_id_witness :
  App.after (state_of [task_A] [] None [])
    (App.removeTask (state_of [task_A] [] None []) (IdNum 2)) (@garbage Task.t 404)
  = state_of [task_A] [] None [].
Proof.
  apply (proj2 (removeTask_absent_id Task.t (state_of [task_A] [] None []) (IdNum 2)
                  (@garbage Task.t 404)
                  ltac:(simpl; intros t [<-|[]]; discriminate))).
Defined.

(* ------------------------------------------------------------------ *)
(** ** Opening an edit *)

(** EDIT on a row puts that row in edit mode with the title of its task in
    the input, whatever edit was open before and whatever text it had; the
    list is untouched and no request is issued.  SAVE pressed next, without
    typing, sends that title back as it is, or nothing at all when the
    title is blank. *)
Theorem edit_opens_row_with_title (s : App.State) (item : Task.t) :
  View.offered s (View.PressEdit item) ->
  let s' := View.handle s (View.PressEdit item) in
  App.request (App.onPressEdit item) = None
  /\ App.tasks s' = App.tasks s
  /\ In (View.mkRow item
           (if Task.completed item then "check-circle" else "circle")%string
           (Task.completed item)
           (View.Editing (Task.title item)))
        (View.rows s')
  /\ View.offered s' (View.PressSave item NetworkError)
  /\ (JsString.trim (Task.title item) <> [] ->
      App.request (App.onPressSave s' item)
      = Some (mkRequest PUT (API_URL_item (Task.id item)) json_headers
                (Some [("title"%string, JString (Task.title item))])))
  /\ (JsString.trim (Task.title item) = [] ->
      App.request (App.onPressSave s' item) = None).
Proof.
  intros [Hin _]. cbv zeta.
  assert (Hrow : View.renderItem (View.handle s (View.PressEdit item)) item
                 = View.mkRow item
                     (if Task.completed item then "check-circle" else "circle")%string
                     (Task.completed item) (View.Editing (Task.title item))).
  { unfold View.renderItem, View.isEditing. simpl. now rewrite strict_eq_refl. }
  split; [reflexivity|]. split; [reflexivity|]. split; [|split; [|split]].
  - rewrite <- Hrow. unfold View.rows. apply in_map. exact Hin.
  - split; [exact Hin|]. unfold View.isEditing. simpl. apply strict_eq_refl.
  - intros H. unfold App.onPressSave. simpl.
    unfold App.saveEdit. simpl. rewrite (guard_text _ H). reflexivity.
  - intros H. unfold App.onPressSave. simpl.
    unfold App.saveEdit. simpl. rewrite (guard_blank _ H). reflexivity.
Qed.

Lemma edit_opens_row_with_title_witness :
  In (View.mkRow task_B "check-circle" true (View.Editing (JsString.lit "B")))
     (View.rows
        (View.handle (state_of [task_A; task_B] [] (Some (IdNum 1)) (JsString.lit "A2"))
           (View.PressEdit task_B))).
Proof.
  apply (edit_opens_row_with_title
           (state_of [task_A; task_B] [] (Some (IdNum 1)) (JsString.lit "A2")) task_B).
  simpl. tauto.
Defined.
